(** * Product / Order domain of example_06: a shallow embedding

    The development follows [src/example_06/domain/entities.py] (the
    entities [Product], [OrderItem], [Order]), the DTO declarations of
    [src/example_06/application/dto.py], the tables of
    [src/example_06/infrastructure/models.py], the product repository of
    [src/example_06/infrastructure/repositories.py] and the services of
    [src/example_06/application/services.py].

    Modelling conventions.
    - A Python [int] is a [Z]; an [Optional[int]] is an [option Z].
    - A Python [str] is the list of its code points ([str]), so that
      [len] is [length] also for non-ASCII names.
    - A Python [float] is a binary64 number ([float], the primitive
      floats): every operation rounds to nearest-even, comparisons with
      NaN are false, and an [int] operand of a float operation is first
      converted to binary64, which raises [OverflowError] beyond the
      float range.
    - [datetime.utcnow()] is the clock reading [now : Z] handed to the
      method that reads it; the database clock behind [func.now()] is
      [db_now : Z].
    - A method is a computation in a state-and-exception monad over the
      objects it can reach: it returns a value and the new state, or
      raises an exception and leaves the state as it was when the
      [raise] statement ran.
    - Every repository method is an [async def].  The definitions of
      [ProductRepository] are the bodies as they run when awaited, every
      writing method committing.  The services call the repositories
      without [await]: what such a call yields is a coroutine object
      ([coroutine]), and no statement of the repository method runs. *)

From Stdlib Require Import ZArith QArith Qabs Lia.
From Stdlib Require Import String Ascii Floats.
From stdpp Require Import base option list gmap.

Local Open Scope Z_scope.

(** ** Strings *)

Definition str := list N.

Definition str_of (s : string) : str :=
  List.map N_of_ascii (list_ascii_of_string s).

Definition len (s : str) : Z := Z.of_nat (length s).

(** ** Exceptions and the method monad *)

(** One constructor per [raise ValueError(...)] site of the entities and
    of the repositories. *)
Inductive value_error :=
| NameTooShort
| PriceNotPositive
| QuantityNegative
| PriceChangeTooLarge
| AmountNotPositive
| InsufficientStock (available : Z)
| OutOfStock (product_name : str)
| NotEnoughOf (product_name : str) (available requested : Z)
| EmptyOrder
| OnlyPendingConfirmable
| CannotCancel (status : str)
| ProductNotFound (product_id : option Z)
| OrderNotFound (order_id : option Z).

(** [AttributeError] names the attribute that cannot be read or set;
    [OverflowError] is raised for an [int] too large for a float or for
    an SQLite integer; [IntegrityError] is the database refusing a row. *)
Inductive exn :=
| ValueError (e : value_error)
| AttributeError (attribute : string)
| ZeroDivisionError
| OverflowError
| IntegrityError.

Inductive result (S A : Type) :=
| Returned (a : A) (s : S)
| Raised (e : exn) (s : S).
Arguments Returned {S A} a s.
Arguments Raised {S A} e s.

Definition M (S A : Type) : Type := S -> result S A.

Definition ret {S A} (a : A) : M S A := fun s => Returned a s.

Definition bind {S A B} (c : M S A) (k : A -> M S B) : M S B :=
  fun s => match c s with
           | Returned a s' => k a s'
           | Raised e s' => Raised e s'
           end.

Definition raise {S A} (e : exn) : M S A := fun s => Raised e s.
Definition get_state {S} : M S S := fun s => Returned s s.
Definition modify {S} (f : S -> S) : M S unit := fun s => Returned tt (f s).

(** [if c: raise e] *)
Definition raise_if {S} (c : bool) (e : exn) : M S unit :=
  if c then raise e else ret tt.

Declare Scope py_scope.
Delimit Scope py_scope with py.
Notation "'let*' x := c 'in' k" := (bind c (fun x => k))
  (at level 10, x name, c at level 100, k at level 200) : py_scope.
Notation "c >> k" := (bind c (fun _ => k))
  (at level 65, right associativity) : py_scope.

Definition state_of {S A} (r : result S A) : S :=
  match r with Returned _ s => s | Raised _ s => s end.

Definition returned {S A} (r : result S A) : bool :=
  match r with Returned _ _ => true | Raised _ _ => false end.

(** [for x in xs: body(x)] *)
Fixpoint for_each {S A} (xs : list A) (body : A -> M S unit) : M S unit :=
  match xs with
  | [] => ret tt
  | x :: rest => (body x >> for_each rest body)%py
  end.

(** ** Floats *)

(** What a read-only property computes: a value, or the exception the
    expression raises. *)
Inductive outcome (A : Type) :=
| Value (a : A)
| Throws (e : exn).
Arguments Value {A} a.
Arguments Throws {A} e.

(** The binary64 number nearest to an integer, ties to even; an infinity
    when that is beyond the largest finite one. *)
Definition nearest_float (z : Z) : float :=
  SF2Prim (binary_normalize prec emax z 0 false).

(** The conversion of an [int] operand of a float operation: the nearest
    float, or [OverflowError] beyond the float range. *)
Definition float_of_int (z : Z) : outcome float :=
  if is_infinity (nearest_float z) then Throws OverflowError
  else Value (nearest_float z).

(** [x * n] for a float [x] and an [int] [n]. *)
Definition mul_float_int (x : float) (n : Z) : outcome float :=
  match float_of_int n with
  | Value f => Value (x * f)%float
  | Throws e => Throws e
  end.

(** The rational number a finite float is. *)
Definition exact (f : float) : option Q :=
  match Prim2SF f with
  | S754_zero _ => Some 0%Q
  | S754_finite s m e =>
      Some ((if s then - inject_Z (Zpos m) else inject_Z (Zpos m)) * Qpower (2 # 1) e)%Q
  | _ => None
  end.

(** ** Product  (entities.py, class Product) *)

Module Product.

Record t := mk {
  id : option Z;
  name : str;
  _price : float;
  _quantity : Z;
  created_at : Z;
  updated_at : Z
}.

Definition set_name (v : str) (self : t) : t :=
  mk (id self) v (_price self) (_quantity self) (created_at self) (updated_at self).
Definition set__price (v : float) (self : t) : t :=
  mk (id self) (name self) v (_quantity self) (created_at self) (updated_at self).
Definition set__quantity (v : Z) (self : t) : t :=
  mk (id self) (name self) (_price self) v (created_at self) (updated_at self).
Definition set_updated_at (v : Z) (self : t) : t :=
  mk (id self) (name self) (_price self) (_quantity self) (created_at self) v.

(** [_validate]: the three checks, in the source's order.  [_price <= 0]
    is false for NaN. *)
Definition _validate : M t unit :=
  (let* self := get_state in
   raise_if (bool_decide (name self = []) || (len (name self) <? 3))
            (ValueError NameTooShort) >>
   raise_if (_price self <=? 0)%float (ValueError PriceNotPositive) >>
   raise_if (_quantity self <? 0) (ValueError QuantityNegative))%py.

(** [__init__]: fill the fields, then [_validate].  The expression
    [Product(...)] yields the object when this returns and propagates
    the exception otherwise. *)
Definition __init__ (now : Z) (name : str) (price : float) (quantity : Z)
    (id : option Z) (created_at updated_at : option Z) : result t unit :=
  _validate (mk id name price quantity
                (default now created_at) (default now updated_at)).

(** Read-only properties. *)
Definition price (self : t) : float := _price self.
Definition quantity (self : t) : Z := _quantity self.
Definition is_in_stock (self : t) : bool := 0 <? _quantity self.
Definition total_value (self : t) : outcome float :=
  mul_float_int (_price self) (_quantity self).

(** [update_price]: [new_price <= 0] and [price_change_percent > 0.5] are
    binary64 comparisons (false for NaN); the difference, its absolute
    value and the quotient are binary64 operations; a float division by
    zero raises [ZeroDivisionError]. *)
Definition update_price (now : Z) (new_price : float) : M t unit :=
  (raise_if (new_price <=? 0)%float (ValueError PriceNotPositive) >>
   let* self := get_state in
   raise_if (_price self =? 0)%float ZeroDivisionError >>
   let price_change_percent := (abs (new_price - _price self) / _price self)%float in
   raise_if (0.5 <? price_change_percent)%float (ValueError PriceChangeTooLarge) >>
   modify (set__price new_price) >>
   modify (set_updated_at now))%py.

Definition add_stock (now : Z) (amount : Z) : M t unit :=
  (raise_if (amount <=? 0) (ValueError AmountNotPositive) >>
   modify (fun self => set__quantity (_quantity self + amount) self) >>
   modify (set_updated_at now))%py.

Definition remove_stock (now : Z) (amount : Z) : M t unit :=
  (raise_if (amount <=? 0) (ValueError AmountNotPositive) >>
   let* self := get_state in
   raise_if (_quantity self <? amount)
            (ValueError (InsufficientStock (_quantity self))) >>
   modify (fun self => set__quantity (_quantity self - amount) self) >>
   modify (set_updated_at now))%py.

(** Assignment [product.<attribute> = v] from outside the class.
    [price] and [quantity] are properties declared without a setter, so
    assigning them raises [AttributeError] and stores nothing; [name]
    is a plain instance attribute, stored as given. *)
Definition assign_price (v : float) : M t unit := raise (AttributeError "price").
Definition assign_quantity (v : Z) : M t unit := raise (AttributeError "quantity").
Definition assign_name (v : str) : M t unit := modify (set_name v).

End Product.

(** ** OrderItem  (entities.py, class OrderItem) *)

Module OrderItem.

Record t := mk {
  _product_id : option Z;
  _product_name : str;
  _price : float;
  _quantity : Z
}.

(** Read-only properties. *)
Definition product_id (self : t) : option Z := _product_id self.
Definition product_name (self : t) : str := _product_name self.
Definition price (self : t) : float := _price self.
Definition quantity (self : t) : Z := _quantity self.
Definition subtotal (self : t) : outcome float :=
  mul_float_int (_price self) (_quantity self).

(** [item.quantity = v]: the class declares [quantity] with [@property]
    only, there is no setter, so the assignment raises [AttributeError]
    and the item keeps its fields. *)
Definition assign_quantity (v : Z) : M t unit := raise (AttributeError "quantity").

(** [__eq__] between two items: product id, price and quantity. *)
Definition __eq__ (self other : t) : bool :=
  bool_decide (_product_id self = _product_id other)
  && (_price self =? _price other)%float
  && (_quantity self =? _quantity other).

End OrderItem.

(** ** Order  (entities.py, class Order) *)

Definition pending : str := str_of "pending".
Definition confirmed : str := str_of "confirmed".
Definition cancelled : str := str_of "cancelled".
Definition delivered : str := str_of "delivered".

Module Order.

Record t := mk {
  id : option Z;
  user_id : Z;
  status : str;
  items : list OrderItem.t;
  created_at : Z
}.

Definition set_status (v : str) (self : t) : t :=
  mk (id self) (user_id self) v (items self) (created_at self).
Definition set_items (v : list OrderItem.t) (self : t) : t :=
  mk (id self) (user_id self) (status self) v (created_at self).

(** [__init__]: a new order has no items; [status] defaults to
    ["pending"]. *)
Definition __init__ (now : Z) (user_id : Z) (id : option Z)
    (created_at : option Z) (status : option str) : t :=
  mk id user_id (default pending status) [] (default now created_at).

(** The objects [add_item] can reach: the order itself and the product
    it is handed. *)
Record frame := mk_frame { self : t; product : Product.t }.

Definition set_self (o : t) (f : frame) : frame := mk_frame o (product f).
Definition set_product (p : Product.t) (f : frame) : frame := mk_frame (self f) p.

(** A method of the product, called on the product of the frame. *)
Definition on_product {A} (c : M Product.t A) : M frame A :=
  fun f => match c (product f) with
           | Returned a p' => Returned a (set_product p' f)
           | Raised e p' => Raised e (set_product p' f)
           end.

(** The loop [for item in self.items: if item.product_id == product.id:
    item.quantity += quantity; return].  The result is [true] when the
    loop left the method through [return], [false] when it ran to its
    end; the augmented assignment reads [item.quantity] and assigns the
    sum back through [OrderItem.assign_quantity]. *)
Fixpoint add_item_loop (product_id : option Z) (quantity : Z)
    (items : list OrderItem.t) : result (list OrderItem.t) bool :=
  match items with
  | [] => Returned false []
  | item :: rest =>
      if bool_decide (OrderItem.product_id item = product_id) then
        match OrderItem.assign_quantity (OrderItem.quantity item + quantity) item with
        | Returned _ item' => Returned true (item' :: rest)
        | Raised e item' => Raised e (item' :: rest)
        end
      else
        match add_item_loop product_id quantity rest with
        | Returned b rest' => Returned b (item :: rest')
        | Raised e rest' => Raised e (item :: rest')
        end
  end.

(** The loop, run on [self.items] inside the frame. *)
Definition find_existing (quantity : Z) : M frame bool :=
  fun f =>
    match add_item_loop (Product.id (product f)) quantity (items (self f)) with
    | Returned b its => Returned b (set_self (set_items its (self f)) f)
    | Raised e its => Raised e (set_self (set_items its (self f)) f)
    end.

(** The item built by [OrderItem(product_id=product.id,
    product_name=product.name, price=product.price, quantity=quantity)]. *)
Definition new_item (product : Product.t) (quantity : Z) : OrderItem.t :=
  OrderItem.mk (Product.id product) (Product.name product)
               (Product.price product) quantity.

Definition add_item (quantity : Z) : M frame unit :=
  (raise_if (quantity <=? 0) (ValueError AmountNotPositive) >>
   let* f := get_state in
   raise_if (negb (Product.is_in_stock (product f)))
            (ValueError (OutOfStock (Product.name (product f)))) >>
   raise_if (Product.quantity (product f) <? quantity)
            (ValueError (NotEnoughOf (Product.name (product f))
                                     (Product.quantity (product f)) quantity)) >>
   let* merged := find_existing quantity in
   if merged : bool then ret tt
   else
     let* f := get_state in
     let item := new_item (product f) quantity in
     modify (fun f => set_self (set_items (items (self f) ++ [item]) (self f)) f))%py.

(** [self.items = [item for item in self.items if item.product_id != product_id]] *)
Definition remove_item (product_id : Z) : M t unit :=
  modify (fun self =>
    set_items (filter (fun item => OrderItem.product_id item <> Some product_id)
                      (items self)) self).

(** [sum(item.subtotal for item in self.items)]: the subtotals are
    computed and added one by one from left to right, each addition a
    binary64 addition, starting from 0 (the plain float loop of [sum];
    an interpreter whose [sum] compensates rounding errors can differ
    from it in the last bits from the third item on).  The first
    subtotal that raises ends the sum with its exception.  For an order
    without items the result is the [int] 0, here the float 0. *)
Definition sum_step (acc : outcome float) (item : OrderItem.t) : outcome float :=
  match acc with
  | Value total =>
      match OrderItem.subtotal item with
      | Value s => Value (total + s)%float
      | Throws e => Throws e
      end
  | Throws e => Throws e
  end.

Definition total_amount (self : t) : outcome float :=
  fold_left sum_step (items self) (Value 0%float).

Definition items_count (self : t) : Z := Z.of_nat (length (items self)).

Definition confirm : M t unit :=
  (let* self := get_state in
   raise_if (bool_decide (items self = [])) (ValueError EmptyOrder) >>
   raise_if (negb (bool_decide (status self = pending)))
            (ValueError OnlyPendingConfirmable) >>
   modify (set_status confirmed))%py.

Definition cancel : M t unit :=
  (let* self := get_state in
   raise_if (bool_decide (status self ∈ [delivered; cancelled]))
            (ValueError (CannotCancel (status self))) >>
   modify (set_status cancelled))%py.

End Order.

(** ** DTOs  (application/dto.py) *)

Module ProductUpdateDTO.

Record t := mk {
  name : option str;
  price : option float;
  quantity : option Z
}.

End ProductUpdateDTO.

Module AddItemToOrderDTO.

Record t := mk {
  product_id : Z;
  quantity : Z
}.

End AddItemToOrderDTO.

Module ProductResponseDTO.
Record t := mk {
  id : option Z;
  name : str;
  price : float;
  quantity : Z;
  is_in_stock : bool;
  total_value : float;
  created_at : Z;
  updated_at : Z
}.
End ProductResponseDTO.

Module OrderItemDTO.
Record t := mk {
  product_id : option Z;
  product_name : str;
  price : float;
  quantity : Z;
  subtotal : float
}.
End OrderItemDTO.

Module OrderResponseDTO.
Record t := mk {
  id : option Z;
  user_id : Z;
  status : str;
  items : list OrderItemDTO.t;
  total_amount : float;
  items_count : Z;
  created_at : Z
}.
End OrderResponseDTO.

(** ** The database  (infrastructure/models.py)

    One table per model, keyed by the primary key; the rows of
    [order_items] are kept with the order they belong to.  A value of
    [db] is the committed state. *)

Module ProductModel.
Record t := mk {
  name : str;
  price : float;
  quantity : Z;
  created_at : Z;
  updated_at : Z
}.
End ProductModel.

Module OrderItemModel.
Record t := mk {
  product_id : option Z;
  product_name : str;
  price : float;
  quantity : Z
}.
End OrderItemModel.

Module OrderModel.
Record t := mk {
  user_id : Z;
  status : str;
  created_at : Z;
  items : list OrderItemModel.t
}.
End OrderModel.

Record db := mk_db {
  products : gmap Z ProductModel.t;
  orders : gmap Z OrderModel.t
}.

Definition set_products (v : gmap Z ProductModel.t) (d : db) : db := mk_db v (orders d).

(** ** ProductRepository  (infrastructure/repositories.py), awaited *)

Module ProductRepository.

(** [_to_entity]: the entity is built with [Product(...)], so the row
    goes through [_validate]. *)
Definition _to_entity (now : Z) (id : Z) (model : ProductModel.t) : M db Product.t :=
  fun d =>
    match Product.__init__ now (ProductModel.name model) (ProductModel.price model)
            (ProductModel.quantity model) (Some id)
            (Some (ProductModel.created_at model))
            (Some (ProductModel.updated_at model)) with
    | Returned _ p => Returned p d
    | Raised e _ => Raised e d
    end.

(** [select(ProductModel).where(ProductModel.id == product_id)]:
    no row has a null primary key. *)
Definition select (product_id : option Z) (d : db) : option ProductModel.t :=
  match product_id with
  | Some k => products d !! k
  | None => None
  end.

Definition get (now : Z) (product_id : option Z) : M db (option Product.t) :=
  (let* d := get_state in
   match product_id, select product_id d with
   | Some k, Some db_product =>
       let* p := _to_entity now k db_product in ret (Some p)
   | _, _ => ret None
   end)%py.

(** The integers an SQLite column holds. *)
Definition sqlite_integer (z : Z) : bool := (- 2 ^ 63 <=? z) && (z <? 2 ^ 63).

(** The [updated_at] the UPDATE leaves in the row.  The column is declared
    with [onupdate=func.now()]: a value assigned to the attribute that
    differs from the loaded one is written as it is; when the assigned
    value is the loaded one and another column changed, the database
    stamps its clock; when no column changed no UPDATE is sent. *)
Definition stamped (db_now : Z) (db_product : ProductModel.t) (product : Product.t) : Z :=
  if bool_decide (Product.updated_at product = ProductModel.updated_at db_product)
  then
    if bool_decide (Product.name product = ProductModel.name db_product)
       && (Product.price product =? ProductModel.price db_product)%float
       && (Product.quantity product =? ProductModel.quantity db_product)
    then ProductModel.updated_at db_product
    else db_now
  else Product.updated_at product.

(** [update]: the row is looked up first; the assigned columns are sent
    at [commit], where a quantity beyond 64 bits cannot be bound
    ([OverflowError]) and a NaN price arrives as NULL in a NOT NULL
    column ([IntegrityError]), in both cases without any write; the row
    is read back by [refresh] and turned into an entity. *)
Definition update (now db_now : Z) (product : Product.t) : M db Product.t :=
  (let* d := get_state in
   match Product.id product, select (Product.id product) d with
   | Some k, Some db_product =>
       let row := ProductModel.mk (Product.name product) (Product.price product)
                    (Product.quantity product)
                    (ProductModel.created_at db_product)
                    (stamped db_now db_product product) in
       raise_if (negb (sqlite_integer (Product.quantity product))) OverflowError >>
       raise_if (is_nan (Product.price product)) IntegrityError >>
       modify (fun d => set_products (<[k := row]> (products d)) d) >>
       _to_entity now k row
   | _, _ => raise (ValueError (ProductNotFound (Product.id product)))
   end)%py.


End ProductRepository.

(** ** Coroutine objects

    A call of an [async def] method without [await] returns a coroutine
    object and runs nothing.  A coroutine object is truthy; it has none
    of the attributes of an entity, so reading one, calling a method or
    assigning an attribute raises [AttributeError]. *)

Inductive coroutine := Coroutine (function : string).

Definition truthy (c : coroutine) : bool := true.

Definition getattr {A} (c : coroutine) (attribute : string) : M db A :=
  raise (AttributeError attribute).

Definition setattr (c : coroutine) (attribute : string) : M db unit :=
  raise (AttributeError attribute).

(** [[f(x) for x in xs]] *)
Fixpoint for_list {S A B} (xs : list A) (f : A -> M S B) : M S (list B) :=
  match xs with
  | [] => ret []
  | x :: rest => (let* y := f x in let* ys := for_list rest f in ret (y :: ys))%py
  end.

(** The value of a property, or its exception raised. *)
Definition eval {S A} (o : outcome A) : M S A :=
  match o with
  | Value a => ret a
  | Throws e => raise e
  end.

(** ** Services  (application/services.py)

    [self.product_repo] and [self.order_repo] are the repositories of
    infrastructure/repositories.py (application/factories.py); each call
    of one of their methods yields a coroutine object. *)

Module ProductService.

(** [_to_response_dto(product)], with the object the services hand it. *)
Definition _to_response_dto (product : coroutine) : M db ProductResponseDTO.t :=
  (let* id := getattr product "id" in
   let* name := getattr product "name" in
   let* price := getattr product "price" in
   let* quantity := getattr product "quantity" in
   let* is_in_stock := getattr product "is_in_stock" in
   let* total_value := getattr product "total_value" in
   let* created_at := getattr product "created_at" in
   let* updated_at := getattr product "updated_at" in
   ret (ProductResponseDTO.mk id name price quantity is_in_stock total_value
          created_at updated_at))%py.

Definition get_product (product_id : Z) : M db (option ProductResponseDTO.t) :=
  (let product := Coroutine "ProductRepository.get" in
   if truthy product
   then let* r := _to_response_dto product in ret (Some r)
   else ret None)%py.

Definition update_product (product_id : Z) (dto : ProductUpdateDTO.t)
    : M db (option ProductResponseDTO.t) :=
  (let product := Coroutine "ProductRepository.get" in
   if negb (truthy product) then ret None
   else
     match ProductUpdateDTO.name dto with
     | Some n => setattr product "name"
     | None => ret tt
     end >>
     match ProductUpdateDTO.price dto with
     | Some p => getattr product "update_price"
     | None => ret tt
     end >>
     match ProductUpdateDTO.quantity dto with
     | Some q =>
         let* quantity := getattr product "quantity" in
         let diff := q - quantity in
         if 0 <? diff then getattr product "add_stock"
         else if diff <? 0 then getattr product "remove_stock"
         else ret tt
     | None => ret tt
     end >>
     let product := Coroutine "ProductRepository.update" in
     let* r := _to_response_dto product in
     ret (Some r))%py.

(** [return self.product_repo.delete(product_id)] *)
Definition delete_product (product_id : Z) : M db coroutine :=
  ret (Coroutine "ProductRepository.delete").

End ProductService.

Module OrderService.

Definition item_dto (item : OrderItem.t) : M db OrderItemDTO.t :=
  (let* subtotal := eval (OrderItem.subtotal item) in
   ret (OrderItemDTO.mk (OrderItem.product_id item) (OrderItem.product_name item)
          (OrderItem.price item) (OrderItem.quantity item) subtotal))%py.

(** [_to_response_dto(order)], with the object the services hand it. *)
Definition _to_response_dto (order : coroutine) : M db OrderResponseDTO.t :=
  (let* items := getattr order "items" in
   let* items_dto := for_list items item_dto in
   let* id := getattr order "id" in
   let* user_id := getattr order "user_id" in
   let* status := getattr order "status" in
   let* total_amount := getattr order "total_amount" in
   let* items_count := getattr order "items_count" in
   let* created_at := getattr order "created_at" in
   ret (OrderResponseDTO.mk id user_id status items_dto total_amount items_count
          created_at))%py.

Definition add_item_to_order (order_id : Z) (dto : AddItemToOrderDTO.t)
    : M db (option OrderResponseDTO.t) :=
  (let order := Coroutine "OrderRepository.get" in
   if negb (truthy order) then ret None
   else
     let product := Coroutine "ProductRepository.get" in
     if negb (truthy product)
     then raise (ValueError (ProductNotFound (Some (AddItemToOrderDTO.product_id dto))))
     else
       let* _ := (getattr order "add_item" : M db unit) in
       let* _ := (getattr product "remove_stock" : M db unit) in
       let _ := Coroutine "ProductRepository.update" in
       let order := Coroutine "OrderRepository.update" in
       let* r := _to_response_dto order in
       ret (Some r))%py.

Definition get_order (order_id : Z) : M db (option OrderResponseDTO.t) :=
  (let order := Coroutine "OrderRepository.get" in
   if truthy order
   then let* r := _to_response_dto order in ret (Some r)
   else ret None)%py.

Definition confirm_order (order_id : Z) : M db (option OrderResponseDTO.t) :=
  (let order := Coroutine "OrderRepository.get" in
   if negb (truthy order) then ret None
   else
     let* _ := (getattr order "confirm" : M db unit) in
     let order := Coroutine "OrderRepository.update" in
     let* r := _to_response_dto order in
     ret (Some r))%py.

(** The body of the loop [for item in order.items] of [cancel_order]. *)
Definition restore_stock (item : OrderItem.t) : M db unit :=
  (let product := Coroutine "ProductRepository.get" in
   if truthy product
   then
     let* _ := (getattr product "add_stock" : M db unit) in
     let _ := Coroutine "ProductRepository.update" in
     ret tt
   else ret tt)%py.

Definition cancel_order (order_id : Z) : M db (option OrderResponseDTO.t) :=
  (let order := Coroutine "OrderRepository.get" in
   if negb (truthy order) then ret None
   else
     let* items := getattr order "items" in
     for_each items restore_stock >>
     let* _ := (getattr order "cancel" : M db unit) in
     let order := Coroutine "OrderRepository.update" in
     let* r := _to_response_dto order in
     ret (Some r))%py.

End OrderService.

(** ** Auxiliary definitions used by the statements *)

(** What a successful [update_price], [add_stock] or [remove_stock]
    leaves behind. *)
Definition with_price (now : Z) (p : Product.t) (v : float) : Product.t :=
  Product.set_updated_at now (Product.set__price v p).
Definition with_quantity (now : Z) (p : Product.t) (v : Z) : Product.t :=
  Product.set_updated_at now (Product.set__quantity v p).

(** [abs(new_price - price) / price], as [update_price] computes it. *)
Definition price_ratio (p : Product.t) (new_price : float) : float :=
  (abs (new_price - Product.price p) / Product.price p)%float.

(** The name [_validate] accepts. *)
Definition name_ok (n : str) : Prop := n <> [] /\ 3 <= len n.

(** The methods of [Product] that write [_price] or [_quantity]. *)
Inductive mutation :=
| UpdatePrice (new_price : float)
| AddStock (amount : Z)
| RemoveStock (amount : Z).

Definition mutate (now : Z) (m : mutation) : M Product.t unit :=
  match m with
  | UpdatePrice new_price => Product.update_price now new_price
  | AddStock amount => Product.add_stock now amount
  | RemoveStock amount => Product.remove_stock now amount
  end.







(** The product ids of the line items of an order. *)
Definition product_ids (o : Order.t) : list (option Z) :=
  List.map OrderItem.product_id (Order.items o).

(** The entity [ProductRepository._to_entity] builds from a row. *)
Definition entity_of (k : Z) (row : ProductModel.t) : Product.t :=
  Product.mk (Some k) (ProductModel.name row) (ProductModel.price row)
    (ProductModel.quantity row) (ProductModel.created_at row)
    (ProductModel.updated_at row).

(** Sample objects. *)
Definition sample_product : Product.t :=
  Product.mk (Some 1) (str_of "Widget") 10 5 0 0.

Definition sample_item : OrderItem.t :=
  OrderItem.mk (Some 1) (str_of "Widget") 10 2.

Definition sample_order (status : str) (items : list OrderItem.t) : Order.t :=
  Order.mk (Some 1) 42 status items 0.

Definition sample_db (status : str) : db :=
  mk_db {[ 1 := ProductModel.mk (str_of "Widget") 10 5 0 0 ]}
        {[ 1 := OrderModel.mk 42 status 0
                  [OrderItemModel.mk (Some 1) (str_of "Widget") 10 2] ]}.

Definition empty_order_db : db :=
  mk_db {[ 1 := ProductModel.mk (str_of "Widget") 10 5 0 0 ]}
        {[ 1 := OrderModel.mk 42 pending 0 [] ]}.

(** A price a little below half of 1.0, and the float nearest to 0.1. *)
Definition just_below_half : float := 0x1.fffffffffffffp-2.

(** The product after a sequence of calls of its writing methods, each
    with its clock reading (a call that raises leaves it as it was). *)
Definition after_mutations (ms : list (Z * mutation)) (p : Product.t) : Product.t :=
  fold_left (fun p nm => state_of (mutate (fst nm) (snd nm) p)) ms p.



(** * Properties *)

Ltac run_method :=
  cbv beta iota delta [bind raise_if raise ret modify get_state] in *.

(** ** Binary64 comparisons *)

Lemma not_nan_spec (x : float) : is_nan x = false -> Prim2SF x <> S754_nan.
Proof.
  unfold is_nan. rewrite FloatAxioms.eqb_spec. intros H E. rewrite E in H. discriminate.
Qed.

Lemma SFcompare_antisym (a b : spec_float) :
  a <> S754_nan -> b <> S754_nan ->
  exists c, SFcompare a b = Some c /\ SFcompare b a = Some (CompOpp c).
Proof.
  intros Ha Hb.
  destruct a as [sa | sa | | sa ma ea]; destruct b as [sb | sb | | sb mb eb];
    try contradiction; cbn;
    try (destruct sa; destruct sb; eexists; split; reflexivity);
    try (destruct sa; eexists; split; reflexivity);
    try (destruct sb; eexists; split; reflexivity).
  eexists. split; [reflexivity|]. f_equal.
  rewrite (Z.compare_antisym ea eb).
  change (Pos.compare_cont Eq mb ma) with (Pos.compare mb ma).
  change (Pos.compare_cont Eq ma mb) with (Pos.compare ma mb).
  rewrite (Pos.compare_antisym ma mb).
  destruct sa, sb; cbn; try reflexivity;
    destruct (ea ?= eb); cbn; try reflexivity;
    destruct (ma ?= mb)%positive; reflexivity.
Qed.

Lemma leb_ltb (x y : float) :
  is_nan x = false -> is_nan y = false -> (x <=? y)%float = negb (y <? x)%float.
Proof.
  intros Hx Hy. rewrite FloatAxioms.leb_spec, FloatAxioms.ltb_spec. unfold SFleb, SFltb.
  destruct (SFcompare_antisym (Prim2SF x) (Prim2SF y)) as (c & -> & ->);
    [now apply not_nan_spec..|].
  now destruct c.
Qed.

Lemma not_nan_intro (x : float) : Prim2SF x <> S754_nan -> is_nan x = false.
Proof.
  intros H. unfold is_nan. rewrite FloatAxioms.eqb_spec. unfold SFeqb.
  destruct (SFcompare_antisym (Prim2SF x) (Prim2SF x) H H) as (c & Hc & Hc').
  rewrite Hc in Hc'. rewrite Hc. destruct c; try discriminate. reflexivity.
Qed.

Lemma ltb_not_nan (x y : float) :
  (x <? y)%float = true -> is_nan x = false /\ is_nan y = false.
Proof.
  rewrite FloatAxioms.ltb_spec. unfold SFltb. intros H.
  split; apply not_nan_intro; intros E; rewrite E in H.
  - discriminate.
  - destruct (Prim2SF x); discriminate.
Qed.

Lemma ltb_neq (x y : float) : (x <? y)%float = true -> (y =? x)%float = false.
Proof.
  intros H. destruct (ltb_not_nan x y H) as [Hx Hy]. revert H.
  rewrite FloatAxioms.ltb_spec, FloatAxioms.eqb_spec. unfold SFltb, SFeqb.
  destruct (SFcompare_antisym (Prim2SF x) (Prim2SF y)) as (c & -> & ->);
    [now apply not_nan_spec..|].
  now destruct c.
Qed.

Lemma zero_not_nan : is_nan 0 = false.
Proof. reflexivity. Qed.

Lemma half_not_nan : is_nan 0.5 = false.
Proof. reflexivity. Qed.

(** ** Product *)

Section ProductFacts.

Variables (now : Z) (p : Product.t).

Lemma update_price_ok new_price :
  (0 <? Product.price p)%float = true ->
  (new_price <=? 0)%float = false ->
  (0.5 <? price_ratio p new_price)%float = false ->
  Product.update_price now new_price p = Returned tt (with_price now p new_price).
Proof.
  intros Hp Hn Hw. unfold Product.update_price. run_method.
  rewrite Hn. cbv beta iota.
  apply ltb_neq in Hp. unfold Product.price in Hp. rewrite Hp. cbv beta iota.
  unfold price_ratio, Product.price in Hw. rewrite Hw. reflexivity.
Qed.

Lemma update_price_nonpositive new_price :
  (new_price <=? 0)%float = true ->
  Product.update_price now new_price p = Raised (ValueError PriceNotPositive) p.
Proof.
  intros Hn. unfold Product.update_price. run_method. rewrite Hn. reflexivity.
Qed.

Lemma update_price_too_far new_price :
  (0 <? Product.price p)%float = true ->
  (new_price <=? 0)%float = false ->
  (0.5 <? price_ratio p new_price)%float = true ->
  Product.update_price now new_price p = Raised (ValueError PriceChangeTooLarge) p.
Proof.
  intros Hp Hn Hw. unfold Product.update_price. run_method.
  rewrite Hn. cbv beta iota.
  apply ltb_neq in Hp. unfold Product.price in Hp. rewrite Hp. cbv beta iota.
  unfold price_ratio, Product.price in Hw. rewrite Hw. reflexivity.
Qed.

Lemma add_stock_ok amount :
  0 < amount ->
  Product.add_stock now amount p
    = Returned tt (with_quantity now p (Product.quantity p + amount)).
Proof.
  intros H. unfold Product.add_stock. run_method.
  destruct (Z.leb_spec amount 0); [lia|]. reflexivity.
Qed.

Lemma add_stock_raises amount :
  amount <= 0 ->
  Product.add_stock now amount p = Raised (ValueError AmountNotPositive) p.
Proof.
  intros H. unfold Product.add_stock. run_method.
  destruct (Z.leb_spec amount 0); [reflexivity|lia].
Qed.

Lemma remove_stock_ok amount :
  0 < amount <= Product.quantity p ->
  Product.remove_stock now amount p
    = Returned tt (with_quantity now p (Product.quantity p - amount)).
Proof.
  intros H. unfold Product.remove_stock, Product.quantity in *. run_method.
  destruct (Z.leb_spec amount 0); [lia|]. cbv beta iota.
  destruct (Z.ltb_spec (Product._quantity p) amount); [lia|]. reflexivity.
Qed.

Lemma remove_stock_raises amount :
  ~ 0 < amount <= Product.quantity p ->
  exists e, Product.remove_stock now amount p = Raised (ValueError e) p.
Proof.
  intros H. unfold Product.remove_stock, Product.quantity in *. run_method.
  destruct (Z.leb_spec amount 0); cbv beta iota; [eauto|].
  destruct (Z.ltb_spec (Product._quantity p) amount); cbv beta iota; [eauto|lia].
Qed.

End ProductFacts.

(** C3, as stated, fails.  The price is 1.0 and the new price the float
    just below 0.5: the new price is positive and its distance from the
    price is more than half of the price, [|p' - p| / p > 0.5], yet
    [update_price] returns and stores it.  The difference [p' - p] is
    rounded to -0.5, so the ratio the code compares is exactly 0.5. *)
Lemma update_price_accepts_more_than_half :
  let p := Product.mk (Some 1) (str_of "Widget") 1 5 0 0 in
  (0 <? Product.price p)%float = true
  /\ Product.update_price 7 just_below_half p = Returned tt (with_price 7 p just_below_half)
  /\ exists q q',
       exact (Product.price p) = Some q /\ exact just_below_half = Some q'
       /\ (0 < q')%Q /\ (1 # 2 < Qabs (q' - q) / q)%Q.
Proof.
  cbv zeta. split; [reflexivity|]. split; [reflexivity|].
  eexists. eexists. split; [vm_compute; reflexivity|].
  split; [vm_compute; reflexivity|]. split; vm_compute; reflexivity.
Qed.

(** C3, amended.  For a product whose price [p] is positive and a new
    price that is not NaN, with the ratio [r = |p' - p| / p] as binary64
    arithmetic computes it (difference, absolute value and quotient each
    rounded) and [r] not NaN: [update_price] returns exactly when
    [0 < p'] and [r <= 0.5], and then the price is [p']; when [p' <= 0]
    or [r > 0.5] it raises a [ValueError] and the product (so its price)
    is as before. *)
Theorem update_price_binary64 (now : Z) (p : Product.t) (new_price : float) :
  (0 <? Product.price p)%float = true ->
  is_nan new_price = false ->
  is_nan (price_ratio p new_price) = false ->
  (returned (Product.update_price now new_price p) = true
     <-> (0 <? new_price)%float = true /\ (price_ratio p new_price <=? 0.5)%float = true)
  /\ ((0 <? new_price)%float = true /\ (price_ratio p new_price <=? 0.5)%float = true ->
      Product.update_price now new_price p = Returned tt (with_price now p new_price)
      /\ Product.price (state_of (Product.update_price now new_price p)) = new_price)
  /\ ((new_price <=? 0)%float = true \/ (0.5 <? price_ratio p new_price)%float = true ->
      exists e, Product.update_price now new_price p = Raised (ValueError e) p).
Proof.
  intros Hp Hnew Hratio.
  pose proof (leb_ltb new_price 0 Hnew zero_not_nan) as Hn.
  pose proof (leb_ltb (price_ratio p new_price) 0.5 Hratio half_not_nan) as Hr.
  destruct (0 <? new_price)%float eqn:Epos; cbn [negb] in Hn.
  - destruct (0.5 <? price_ratio p new_price)%float eqn:Efar; cbn [negb] in Hr.
    + rewrite (update_price_too_far now p new_price Hp Hn Efar), Hn, Hr. cbn.
      refine (conj _ (conj _ _)).
      * split; [discriminate|]. intros [_ H]. discriminate.
      * intros [_ H]. discriminate.
      * eauto.
    + rewrite (update_price_ok now p new_price Hp Hn Efar), Hn, Hr. cbn.
      refine (conj _ (conj _ _)).
      * tauto.
      * auto.
      * intros [H | H]; discriminate.
  - rewrite (update_price_nonpositive now p new_price Hn). cbn.
    refine (conj _ (conj _ _)).
    + split; [discriminate|]. intros [H _]. discriminate.
    + intros [H _]. discriminate.
    + eauto.
Qed.

Lemma update_price_binary64_witness :
  Product.price (state_of (Product.update_price 7 15 sample_product)) = 15%float
  /\ exists e, Product.update_price 7 16 sample_product = Raised (ValueError e) sample_product.
Proof.
  split.
  - apply (update_price_binary64 7 sample_product 15); reflexivity || (split; reflexivity).
  - apply (update_price_binary64 7 sample_product 16); try reflexivity.
    right. reflexivity.
Defined.

(** C4.  For a product with quantity [q >= 0] and any [amount]:
    [remove_stock] returns if and only if [0 < amount <= q], and then the
    quantity is exactly [q - amount]; otherwise it raises a [ValueError]
    and the quantity is still [q]. *)
Theorem remove_stock_spec (now : Z) (p : Product.t) (amount : Z) :
  0 <= Product.quantity p ->
  (returned (Product.remove_stock now amount p) = true
     <-> 0 < amount <= Product.quantity p)
  /\ (0 < amount <= Product.quantity p ->
      Product.remove_stock now amount p
        = Returned tt (with_quantity now p (Product.quantity p - amount))
      /\ Product.quantity (state_of (Product.remove_stock now amount p))
        = Product.quantity p - amount)
  /\ (~ 0 < amount <= Product.quantity p ->
      (exists e, Product.remove_stock now amount p = Raised (ValueError e) p)
      /\ Product.quantity (state_of (Product.remove_stock now amount p))
        = Product.quantity p).
Proof.
  intros _.
  destruct (decide (0 < amount <= Product.quantity p)) as [H | H].
  - rewrite (remove_stock_ok now p amount H). cbn. repeat split; tauto.
  - destruct (remove_stock_raises now p amount H) as [e He]. rewrite He. cbn.
    repeat split; try tauto; try discriminate; eauto.
Qed.

Lemma remove_stock_spec_witness :
  Product.quantity (state_of (Product.remove_stock 7 5 sample_product)) = 0
  /\ Product.quantity (state_of (Product.remove_stock 7 6 sample_product)) = 5.
Proof.
  assert (Hq : 0 <= Product.quantity sample_product) by (cbn; lia).
  split.
  - apply (remove_stock_spec 7 sample_product 5 Hq). cbn. lia.
  - apply (remove_stock_spec 7 sample_product 6 Hq). cbn. lia.
Defined.

(** C7.  [Product("abc", nan, 1)] is constructed: [_validate] asks
    [_price <= 0], which is false for NaN, so the check raises nothing
    and the product's price is not greater than 0.  In the same way
    [update_price(nan)] on a product with price 10.0 passes both checks
    and stores NaN. *)
Theorem nan_price_is_accepted :
  Product.__init__ 0 (str_of "abc") nan 1 None None None
  = Returned tt (Product.mk None (str_of "abc") nan 1 0 0)
  /\ (0 <? Product.price (Product.mk None (str_of "abc") nan 1 0 0))%float = false
  /\ Product.update_price 7 nan sample_product = Returned tt (with_price 7 sample_product nan)
  /\ (0 <? Product.price (with_price 7 sample_product nan))%float = false.
Proof. repeat split. Qed.

(** ** Order: status transitions *)

Lemma in_terminal s : s ∈ [delivered; cancelled] <-> s = delivered \/ s = cancelled.
Proof.
  rewrite !elem_of_cons, elem_of_nil. tauto.
Qed.

Lemma confirm_ok (o : Order.t) :
  Order.items o <> [] -> Order.status o = pending ->
  Order.confirm o = Returned tt (Order.set_status confirmed o).
Proof.
  intros Hi Hs. unfold Order.confirm. run_method.
  rewrite bool_decide_eq_false_2 by exact Hi. cbv beta iota.
  rewrite bool_decide_eq_true_2 by exact Hs. reflexivity.
Qed.

Lemma confirm_raises (o : Order.t) :
  Order.items o = [] \/ Order.status o <> pending ->
  exists e, Order.confirm o = Raised (ValueError e) o.
Proof.
  intros H. unfold Order.confirm. run_method.
  destruct (decide (Order.items o = [])) as [Hi | Hi].
  - rewrite bool_decide_eq_true_2 by exact Hi. eauto.
  - rewrite bool_decide_eq_false_2 by exact Hi. cbv beta iota.
    destruct H as [H | H]; [contradiction|].
    rewrite bool_decide_eq_false_2 by exact H. cbn. eauto.
Qed.

Lemma cancel_ok (o : Order.t) :
  Order.status o <> delivered -> Order.status o <> cancelled ->
  Order.cancel o = Returned tt (Order.set_status cancelled o).
Proof.
  intros Hd Hc. unfold Order.cancel. run_method.
  rewrite bool_decide_eq_false_2; [reflexivity|].
  rewrite in_terminal. tauto.
Qed.

Lemma cancel_raises (o : Order.t) :
  Order.status o = delivered \/ Order.status o = cancelled ->
  Order.cancel o = Raised (ValueError (CannotCancel (Order.status o))) o.
Proof.
  intros H. unfold Order.cancel. run_method.
  rewrite bool_decide_eq_true_2; [reflexivity|].
  rewrite in_terminal. exact H.
Qed.

(** C5.  [confirm] raises exactly when the items list is empty or the
    status is not pending, and otherwise sets the status to confirmed;
    [cancel] raises exactly when the status is delivered or cancelled,
    and otherwise sets the status to cancelled; so confirming a confirmed
    order raises and cancelling a cancelled order raises.  A call that
    raises leaves the order as it was. *)
Theorem order_status_machine (o : Order.t) :
  (returned (Order.confirm o) = false
     <-> Order.items o = [] \/ Order.status o <> pending)
  /\ (forall e s, Order.confirm o = Raised e s -> s = o /\ exists v, e = ValueError v)
  /\ (forall s, Order.confirm o = Returned tt s -> s = Order.set_status confirmed o)
  /\ (returned (Order.cancel o) = false
     <-> Order.status o = delivered \/ Order.status o = cancelled)
  /\ (forall e s, Order.cancel o = Raised e s -> s = o /\ exists v, e = ValueError v)
  /\ (forall s, Order.cancel o = Returned tt s -> s = Order.set_status cancelled o)
  /\ (Order.status o = confirmed -> returned (Order.confirm o) = false)
  /\ (Order.status o = cancelled -> returned (Order.cancel o) = false).
Proof.
  assert (Hconfirm :
    (Order.items o = [] \/ Order.status o <> pending)
    \/ (Order.items o <> [] /\ Order.status o = pending)).
  { destruct (decide (Order.items o = [])); destruct (decide (Order.status o = pending));
      tauto. }
  assert (Hcancel :
    (Order.status o = delivered \/ Order.status o = cancelled)
    \/ (Order.status o <> delivered /\ Order.status o <> cancelled)).
  { destruct (decide (Order.status o = delivered));
      destruct (decide (Order.status o = cancelled)); tauto. }
  assert (C1 : returned (Order.confirm o) = false
     <-> Order.items o = [] \/ Order.status o <> pending).
  { destruct Hconfirm as [H | [Hi Hs]].
    - destruct (confirm_raises o H) as [e He]. rewrite He. cbn. tauto.
    - rewrite (confirm_ok o Hi Hs). cbn. split; [discriminate|tauto]. }
  assert (C2 : returned (Order.cancel o) = false
     <-> Order.status o = delivered \/ Order.status o = cancelled).
  { destruct Hcancel as [H | [Hd Hc]].
    - rewrite (cancel_raises o H). cbn. tauto.
    - rewrite (cancel_ok o Hd Hc). cbn. split; [discriminate|tauto]. }
  refine (conj C1 (conj _ (conj _ (conj C2 (conj _ (conj _ (conj _ _))))))).
  - intros e s. destruct Hconfirm as [H | [Hi Hs]].
    + destruct (confirm_raises o H) as [v Hv]. rewrite Hv. intros [= <- <-]. eauto.
    + rewrite (confirm_ok o Hi Hs). discriminate.
  - intros s. destruct Hconfirm as [H | [Hi Hs]].
    + destruct (confirm_raises o H) as [v Hv]. rewrite Hv. discriminate.
    + rewrite (confirm_ok o Hi Hs). now intros [= <-].
  - intros e s. destruct Hcancel as [H | [Hd Hc]].
    + rewrite (cancel_raises o H). intros [= <- <-]. eauto.
    + rewrite (cancel_ok o Hd Hc). discriminate.
  - intros s. destruct Hcancel as [H | [Hd Hc]].
    + rewrite (cancel_raises o H). discriminate.
    + rewrite (cancel_ok o Hd Hc). now intros [= <-].
  - intros Hs. apply C1. right. rewrite Hs. discriminate.
  - intros Hs. apply C2. now right.
Qed.

Lemma order_status_machine_witness :
  Order.confirm (sample_order pending [sample_item])
    = Returned tt (sample_order confirmed [sample_item])
  /\ returned (Order.confirm (sample_order confirmed [sample_item])) = false
  /\ Order.cancel (sample_order confirmed [sample_item])
    = Returned tt (sample_order cancelled [sample_item])
  /\ returned (Order.cancel (sample_order cancelled [sample_item])) = false.
Proof.
  refine (conj _ (conj _ (conj _ _))).
  - reflexivity.
  - apply (order_status_machine (sample_order confirmed [sample_item])). reflexivity.
  - reflexivity.
  - apply (order_status_machine (sample_order cancelled [sample_item])). reflexivity.
Defined.

(** ** Order: line items *)

Lemma frame_eta (f : Order.frame) :
  Order.set_self (Order.set_items (Order.items (Order.self f)) (Order.self f)) f = f.
Proof. destruct f as [[] ?]. reflexivity. Qed.

(** The loop stops at the first item with the product's id, where the
    assignment to [item.quantity] raises; without such an item it runs to
    its end.  In both cases the list is the one it started with. *)
Lemma add_item_loop_found pid q items :
  pid ∈ List.map OrderItem.product_id items ->
  Order.add_item_loop pid q items = Raised (AttributeError "quantity") items.
Proof.
  induction items as [|item rest IH]; cbn.
  - intros H. now apply elem_of_nil in H.
  - intros H. apply elem_of_cons in H.
    destruct (decide (OrderItem.product_id item = pid)) as [E | E].
    + rewrite bool_decide_eq_true_2 by exact E. reflexivity.
    + rewrite bool_decide_eq_false_2 by exact E.
      destruct H as [H | H]; [congruence|]. now rewrite IH.
Qed.

Lemma add_item_loop_not_found pid q items :
  pid ∉ List.map OrderItem.product_id items ->
  Order.add_item_loop pid q items = Returned false items.
Proof.
  induction items as [|item rest IH]; cbn; [reflexivity|].
  intros H. apply not_elem_of_cons in H. destruct H as [H1 H2].
  rewrite bool_decide_eq_false_2 by congruence. now rewrite IH.
Qed.

Section AddItem.

Variables (quantity : Z) (f : Order.frame).

Let o := Order.self f.
Let p := Order.product f.

Lemma add_item_checks_pass :
  0 < quantity <= Product.quantity p ->
  Order.add_item quantity f
  = (let* merged := Order.find_existing quantity in
     if merged : bool then ret tt
     else
       let* f := get_state in
       let item := Order.new_item (Order.product f) quantity in
       modify (fun f => Order.set_self
                 (Order.set_items (Order.items (Order.self f) ++ [item]) (Order.self f)) f))%py
      f.
Proof.
  intros H. unfold Order.add_item, Product.is_in_stock, Product.quantity, p in *.
  run_method.
  destruct (Z.leb_spec quantity 0); [lia|]. cbv beta iota.
  destruct (Z.ltb_spec 0 (Product._quantity (Order.product f))); [|lia]. cbv beta iota.
  cbn [negb].
  destruct (Z.ltb_spec (Product._quantity (Order.product f)) quantity); [lia|].
  reflexivity.
Qed.

Lemma add_item_rejects :
  ~ 0 < quantity <= Product.quantity p ->
  exists e, Order.add_item quantity f = Raised (ValueError e) f.
Proof.
  intros H. unfold Order.add_item, Product.is_in_stock, Product.quantity, p in *.
  run_method.
  destruct (Z.leb_spec quantity 0); [eauto|]. cbv beta iota.
  destruct (Z.ltb_spec 0 (Product._quantity (Order.product f))); cbn [negb];
    cbv beta iota; [|eauto].
  destruct (Z.ltb_spec (Product._quantity (Order.product f)) quantity); [eauto|lia].
Qed.

(** A second call for a product the order already lists. *)
Lemma add_item_existing :
  0 < quantity <= Product.quantity p ->
  Product.id p ∈ product_ids o ->
  Order.add_item quantity f = Raised (AttributeError "quantity") f.
Proof.
  intros Hq Hin. rewrite add_item_checks_pass by exact Hq.
  unfold Order.find_existing. run_method.
  rewrite add_item_loop_found by exact Hin. now rewrite frame_eta.
Qed.

(** A call for a product the order does not list yet. *)
Lemma add_item_new :
  0 < quantity <= Product.quantity p ->
  Product.id p ∉ product_ids o ->
  Order.add_item quantity f
  = Returned tt (Order.set_self
                   (Order.set_items (Order.items o ++ [Order.new_item p quantity]) o) f).
Proof.
  intros Hq Hin. rewrite add_item_checks_pass by exact Hq.
  unfold Order.find_existing. run_method.
  rewrite add_item_loop_not_found by exact Hin. now rewrite frame_eta.
Qed.

(** The three outcomes of [add_item]. *)
Lemma add_item_outcome :
  (exists e, Order.add_item quantity f = Raised e f)
  \/ (0 < quantity <= Product.quantity p
      /\ (Product.id p ∉ product_ids o)
      /\ Order.add_item quantity f
         = Returned tt (Order.set_self
             (Order.set_items (Order.items o ++ [Order.new_item p quantity]) o) f)).
Proof.
  destruct (decide (0 < quantity <= Product.quantity p)) as [Hq | Hq].
  - destruct (decide (Product.id p ∈ product_ids o)) as [Hin | Hin].
    + left. eexists. now apply add_item_existing.
    + right. split; [exact Hq|]. split; [exact Hin|]. now apply add_item_new.
  - left. destruct (add_item_rejects Hq) as [e He]. eauto.
Qed.

(** No call of [add_item] leaves two line items with one product id. *)
Lemma add_item_no_duplicates :
  NoDup (product_ids o) ->
  NoDup (product_ids (Order.self (state_of (Order.add_item quantity f)))).
Proof.
  intros Hnd. destruct add_item_outcome as [[e He] | (_ & Hin & Hr)]; rewrite ?He, ?Hr; cbn.
  - exact Hnd.
  - unfold product_ids. cbn. rewrite List.map_app. cbn.
    apply NoDup_app. split; [exact Hnd|]. split.
    + intros x Hx Hx'. apply list_elem_of_singleton in Hx'. subst x. now apply Hin.
    + apply NoDup_singleton.
Qed.

End AddItem.

(** C1.  The order lists product 1 with quantity 2; the product has 5 in
    stock.  A second [add_item] for this product with quantity 1 does not
    bring the line item to 3: the assignment to [item.quantity] raises
    [AttributeError], and the order is as before, the item still at 2. *)
Theorem add_item_same_product_raises :
  Order.add_item 1 (Order.mk_frame (sample_order pending [sample_item]) sample_product)
  = Raised (AttributeError "quantity")
      (Order.mk_frame (sample_order pending [sample_item]) sample_product).
Proof. reflexivity. Qed.

(** C10.  [add_item] does not read the status: on a confirmed, cancelled
    or delivered order, for a product whose id is not among the items and
    [0 < quantity <= product.quantity], it returns and appends the line
    item, and the items are those the same call leaves on the order with
    status pending. *)
Theorem add_item_ignores_status (o : Order.t) (p : Product.t) (quantity : Z) :
  Order.status o ∈ [confirmed; cancelled; delivered] ->
  Product.id p ∉ product_ids o ->
  0 < quantity <= Product.quantity p ->
  Order.add_item quantity (Order.mk_frame o p)
    = Returned tt (Order.mk_frame
        (Order.set_items (Order.items o ++ [Order.new_item p quantity]) o) p)
  /\ Order.add_item quantity (Order.mk_frame (Order.set_status pending o) p)
    = Returned tt (Order.mk_frame
        (Order.set_status pending
           (Order.set_items (Order.items o ++ [Order.new_item p quantity]) o)) p).
Proof.
  intros _ Hin Hq. split.
  - now rewrite (add_item_new quantity (Order.mk_frame o p) Hq Hin).
  - now rewrite (add_item_new quantity (Order.mk_frame (Order.set_status pending o) p) Hq Hin).
Qed.

Lemma add_item_ignores_status_witness :
  Order.add_item 2 (Order.mk_frame (sample_order delivered []) sample_product)
  = Returned tt (Order.mk_frame (sample_order delivered [sample_item]) sample_product).
Proof.
  apply (add_item_ignores_status (sample_order delivered []) sample_product 2).
  - rewrite !elem_of_cons. right. right. left. reflexivity.
  - cbn. apply not_elem_of_nil.
  - cbn. lia.
Defined.

(** C8.  [add_item] leaves the product it is handed as it was, whether it
    returns or raises; when it returns, the appended item carries the
    product's id, name and price of that moment and the quantity asked
    for; a later [update_price] on the product leaves the order, so the
    price and the subtotal of every item, as they were. *)
Theorem add_item_frame_and_snapshot (quantity : Z) (f : Order.frame) :
  Order.product (state_of (Order.add_item quantity f)) = Order.product f
  /\ (forall f', Order.add_item quantity f = Returned tt f' ->
        Order.items (Order.self f')
          = Order.items (Order.self f)
              ++ [OrderItem.mk (Product.id (Order.product f))
                               (Product.name (Order.product f))
                               (Product.price (Order.product f)) quantity])
  /\ (forall now new_price,
        let f' := state_of (Order.add_item quantity f) in
        let f'' := state_of (Order.on_product (Product.update_price now new_price) f') in
        Order.self f'' = Order.self f'
        /\ List.map OrderItem.price (Order.items (Order.self f''))
           = List.map OrderItem.price (Order.items (Order.self f'))
        /\ List.map OrderItem.subtotal (Order.items (Order.self f''))
           = List.map OrderItem.subtotal (Order.items (Order.self f'))).
Proof.
  split; [|split].
  - destruct (add_item_outcome quantity f) as [[e He] | (_ & _ & Hr)];
      rewrite ?He, ?Hr; reflexivity.
  - intros f'. destruct (add_item_outcome quantity f) as [[e He] | (_ & _ & Hr)].
    + rewrite He. discriminate.
    + rewrite Hr. now intros [= <-].
  - intros now new_price f' f''.
    assert (H : Order.self f'' = Order.self f').
    { unfold f'', Order.on_product.
      destruct (Product.update_price now new_price (Order.product f')); reflexivity. }
    now rewrite H.
Qed.

Lemma add_item_frame_and_snapshot_witness :
  Order.items (Order.self (state_of
    (Order.add_item 2 (Order.mk_frame (sample_order pending []) sample_product))))
  = [sample_item]
  /\ List.map OrderItem.price (Order.items (Order.self (state_of
       (Order.on_product (Product.update_price 7 15)
          (state_of (Order.add_item 2
             (Order.mk_frame (sample_order pending []) sample_product)))))))
    = [10%float].
Proof.
  pose proof (add_item_frame_and_snapshot 2
                (Order.mk_frame (sample_order pending []) sample_product)) as (_ & Happ & Hsnap).
  split.
  - exact (Happ _ eq_refl).
  - destruct (Hsnap 7 15%float) as (_ & Hprice & _). rewrite Hprice. reflexivity.
Defined.

(** ** Order: derived amounts *)







(** ** Services *)

(** No call of [cancel_order] gets past [order.items]: [order] is the
    coroutine object of the call [self.order_repo.get(order_id)]. *)
Lemma cancel_order_raises (order_id : Z) (d : db) :
  OrderService.cancel_order order_id d = Raised (AttributeError "items") d.
Proof. reflexivity. Qed.

(** C2.  Product 1 has 5 in stock and order 1 lists 2 of it.  Whether the
    order is pending or cancelled, [cancel_order] raises
    [AttributeError]: the order was never awaited, so neither the
    restocking loop nor [Order.cancel] is reached; no stock is restored,
    the order is not stored as cancelled, and the error is not the
    [ValueError] of the business rule. *)
Theorem cancel_order_stops_at_the_coroutine :
  OrderService.cancel_order 1 (sample_db pending)
  = Raised (AttributeError "items") (sample_db pending)
  /\ OrderService.cancel_order 1 (sample_db cancelled)
     = Raised (AttributeError "items") (sample_db cancelled).
Proof. split; reflexivity. Qed.

(** ** Product: the name *)

Lemma validate_same (p : Product.t) : state_of (Product._validate p) = p.
Proof.
  unfold Product._validate. run_method.
  repeat (match goal with |- context [if ?b then _ else _] => destruct b end;
          cbv beta iota; try reflexivity).
Qed.

Lemma validate_name_ok (p p' : Product.t) :
  Product._validate p = Returned tt p' -> name_ok (Product.name p).
Proof.
  unfold Product._validate. run_method.
  destruct (decide (Product.name p = [])) as [E | E].
  - rewrite bool_decide_eq_true_2 by exact E. discriminate.
  - rewrite bool_decide_eq_false_2 by exact E. cbn [orb].
    destruct (Z.ltb_spec (len (Product.name p)) 3); [discriminate|].
    intros _. split; [exact E|lia].
Qed.

Lemma mutate_name now m p : Product.name (state_of (mutate now m p)) = Product.name p.
Proof.
  destruct m; cbn;
    unfold Product.update_price, Product.add_stock, Product.remove_stock; run_method;
    repeat (match goal with |- context [if ?b then _ else _] => destruct b end;
            cbv beta iota; try reflexivity).
Qed.

Lemma after_mutations_name ms p :
  Product.name (after_mutations ms p) = Product.name p.
Proof.
  revert p. induction ms as [|[now m] ms IH]; intros p; [reflexivity|].
  cbn. rewrite IH. apply mutate_name.
Qed.

(** C6, as stated, fails.  [Product("Widget", 10.0, 5)] is constructed;
    the assignment [product.name = "ab"] is an operation of the public
    interface ([name] is a plain attribute), it raises nothing, and the
    name then has two characters. *)
Lemma name_assignment_is_not_validated :
  Product.__init__ 0 (str_of "Widget") 10 5 (Some 1) (Some 0) (Some 0)
  = Returned tt sample_product
  /\ Product.assign_name (str_of "ab") sample_product
     = Returned tt (Product.set_name (str_of "ab") sample_product)
  /\ ~ name_ok (Product.name (Product.set_name (str_of "ab") sample_product)).
Proof.
  split; [reflexivity|]. split; [reflexivity|].
  intros [_ H]. vm_compute in H. now apply H.
Qed.

(** C6, amended.  The name of a product is non-empty and at least 3
    characters long after a successful construction, and the methods of
    the entities leave it as it is: [update_price], [add_stock] and
    [remove_stock], in any sequence and whether they return or raise,
    and [Order.add_item] for the product it is handed. *)
Theorem product_name_kept_by_methods :
  (forall now name price quantity id created_at updated_at p,
      Product.__init__ now name price quantity id created_at updated_at = Returned tt p ->
      name_ok (Product.name p))
  /\ (forall now m p, Product.name (state_of (mutate now m p)) = Product.name p)
  /\ (forall ms p, name_ok (Product.name p) -> name_ok (Product.name (after_mutations ms p)))
  /\ (forall quantity f,
        Product.name (Order.product (state_of (Order.add_item quantity f)))
        = Product.name (Order.product f)).
Proof.
  refine (conj _ (conj mutate_name (conj _ _))).
  - intros now name price quantity id created_at updated_at p H.
    unfold Product.__init__ in H.
    pose proof (validate_name_ok _ _ H) as Hn.
    match type of H with Product._validate ?x = _ =>
      pose proof (validate_same x) as Hs end.
    rewrite H in Hs. cbn in Hs. subst p. exact Hn.
  - intros ms p H. now rewrite after_mutations_name.
  - intros quantity f.
    destruct (add_item_outcome quantity f) as [[e He] | (_ & _ & Hr)];
      rewrite ?He, ?Hr; reflexivity.
Qed.

Lemma product_name_kept_by_methods_witness :
  name_ok (Product.name sample_product)
  /\ name_ok (Product.name
       (after_mutations [(7, UpdatePrice 12); (8, RemoveStock 9); (9, AddStock 4)]
          sample_product)).
Proof.
  assert (Hn : name_ok (Product.name sample_product)).
  { apply (proj1 product_name_kept_by_methods 0 (str_of "Widget") 10%float 5 (Some 1)
             (Some 0) (Some 0)). reflexivity. }
  split; [exact Hn|].
  exact (proj1 (proj2 (proj2 product_name_kept_by_methods)) _ sample_product Hn).
Defined.

(** * Further properties *)

(** ** Product: stock *)

(** X1.  [add_stock] returns exactly when the amount is positive, and
    then the quantity has grown by the amount and [updated_at] is the
    clock reading; for an amount of zero or less it raises [ValueError]
    and the product is as before. *)
Theorem add_stock_spec (now : Z) (p : Product.t) (amount : Z) :
  (returned (Product.add_stock now amount p) = true <-> 0 < amount)
  /\ (0 < amount ->
      Product.add_stock now amount p
        = Returned tt (with_quantity now p (Product.quantity p + amount))
      /\ Product.quantity (state_of (Product.add_stock now amount p))
         = Product.quantity p + amount
      /\ Product.updated_at (state_of (Product.add_stock now amount p)) = now)
  /\ (amount <= 0 ->
      Product.add_stock now amount p = Raised (ValueError AmountNotPositive) p).
Proof.
  destruct (decide (0 < amount)) as [H | H].
  - rewrite (add_stock_ok now p amount H). cbn.
    refine (conj _ (conj _ _)); [tauto|auto|lia].
  - rewrite (add_stock_raises now p amount) by lia. cbn.
    refine (conj _ (conj _ _)); [|tauto|reflexivity].
    split; [discriminate|tauto].
Qed.

(** X2.  Stock added and then removed, or removed and then added, in the
    same amount leaves the product as it was up to [updated_at]: both
    calls return, and id, name, price, quantity and [created_at] are
    those of the start. *)
Theorem stock_round_trip (now1 now2 : Z) (p : Product.t) (amount : Z) :
  0 < amount -> 0 <= Product.quantity p ->
  (exists p1,
     Product.add_stock now1 amount p = Returned tt p1
     /\ Product.remove_stock now2 amount p1 = Returned tt (Product.set_updated_at now2 p))
  /\ (amount <= Product.quantity p ->
      exists p1,
        Product.remove_stock now1 amount p = Returned tt p1
        /\ Product.add_stock now2 amount p1 = Returned tt (Product.set_updated_at now2 p)).
Proof.
  intros Ha Hq. split.
  - eexists. split; [now apply add_stock_ok|].
    rewrite remove_stock_ok by (cbn; unfold Product.quantity in *; lia).
    unfold with_quantity, Product.set_updated_at, Product.set__quantity, Product.quantity.
    cbn. do 2 f_equal. lia.
  - intros Hle. eexists. split; [apply remove_stock_ok; lia|].
    rewrite add_stock_ok by exact Ha.
    unfold with_quantity, Product.set_updated_at, Product.set__quantity, Product.quantity.
    cbn. do 2 f_equal. lia.
Qed.

Lemma stock_round_trip_witness :
  exists p1,
    Product.add_stock 3 4 sample_product = Returned tt p1
    /\ Product.remove_stock 8 4 p1 = Returned tt (Product.set_updated_at 8 sample_product).
Proof.
  apply (stock_round_trip 3 8 sample_product 4); cbn; lia.
Defined.

(** ** Order: removing and adding items *)

(** X3.  [remove_item] never raises; it keeps exactly the items whose
    product id differs from the one given, in their order, and touches no
    other field; for an id the order does not list it changes nothing;
    a second call with the same id changes nothing either. *)
Theorem remove_item_spec (product_id : Z) (o : Order.t) :
  exists o',
    Order.remove_item product_id o = Returned tt o'
    /\ (Some product_id ∉ product_ids o')
    /\ (forall item, item ∈ Order.items o'
          <-> OrderItem.product_id item <> Some product_id /\ item ∈ Order.items o)
    /\ sublist (Order.items o') (Order.items o)
    /\ Order.status o' = Order.status o
    /\ Order.id o' = Order.id o
    /\ (Some product_id ∉ product_ids o -> o' = o)
    /\ Order.remove_item product_id o' = Returned tt o'.
Proof.
  eexists. split; [reflexivity|]. cbn.
  assert (Hnot : Some product_id ∉
    List.map OrderItem.product_id
      (filter (fun item => OrderItem.product_id item <> Some product_id) (Order.items o))).
  { intros H. apply list_elem_of_fmap in H as (item & Hid & Hin).
    apply list_elem_of_filter in Hin as [Hne _]. congruence. }
  assert (Hsame : forall l : list OrderItem.t,
    Some product_id ∉ List.map OrderItem.product_id l ->
    filter (fun item => OrderItem.product_id item <> Some product_id) l = l).
  { induction l as [|x l IH]; [reflexivity|]. intros H. simpl in H.
    apply not_elem_of_cons in H as [H1 H2].
    rewrite filter_cons_True by congruence. now rewrite IH. }
  refine (conj Hnot (conj _ (conj _ (conj eq_refl (conj eq_refl (conj _ _)))))).
  - intros item. rewrite list_elem_of_filter. tauto.
  - apply sublist_filter.
  - intros H. unfold Order.set_items. rewrite (Hsame _ H). now destruct o.
  - unfold Order.remove_item, modify, Order.set_items. cbn.
    now rewrite (Hsame _ Hnot).
Qed.

(** X6.  The checks of [add_item] in the order the code makes them: a
    quantity of zero or less is rejected first, then a product without
    stock, then a quantity above the stock, each with its own
    [ValueError] and the order and the product untouched; the call
    returns exactly when the quantity is within the stock and the order
    does not list the product yet. *)
Theorem add_item_decision_table (quantity : Z) (f : Order.frame) :
  let p := Order.product f in
  (quantity <= 0 ->
     Order.add_item quantity f = Raised (ValueError AmountNotPositive) f)
  /\ (0 < quantity -> Product.quantity p <= 0 ->
     Order.add_item quantity f = Raised (ValueError (OutOfStock (Product.name p))) f)
  /\ (0 < Product.quantity p < quantity ->
     Order.add_item quantity f
     = Raised (ValueError (NotEnoughOf (Product.name p) (Product.quantity p) quantity)) f)
  /\ (returned (Order.add_item quantity f) = true
      <-> 0 < quantity <= Product.quantity p
          /\ (Product.id p ∉ product_ids (Order.self f))).
Proof.
  intros p. unfold p.
  refine (conj _ (conj _ (conj _ _))).
  - intros H. unfold Order.add_item. run_method.
    destruct (Z.leb_spec quantity 0); [reflexivity|lia].
  - intros H1 H2. unfold Order.add_item, Product.is_in_stock, Product.quantity in *.
    run_method.
    destruct (Z.leb_spec quantity 0); [lia|]. cbv beta iota.
    destruct (Z.ltb_spec 0 (Product._quantity (Order.product f))); [lia|]. reflexivity.
  - intros H. unfold Order.add_item, Product.is_in_stock, Product.quantity in *.
    run_method.
    destruct (Z.leb_spec quantity 0); [lia|]. cbv beta iota.
    destruct (Z.ltb_spec 0 (Product._quantity (Order.product f))); [|lia].
    cbn [negb]. cbv beta iota.
    destruct (Z.ltb_spec (Product._quantity (Order.product f)) quantity); [|lia].
    reflexivity.
  - destruct (decide (0 < quantity <= Product.quantity (Order.product f))) as [Hq | Hq].
    + destruct (decide (Product.id (Order.product f) ∈ product_ids (Order.self f)))
        as [Hin | Hin].
      * rewrite (add_item_existing quantity f Hq Hin). cbn.
        split; [discriminate|tauto].
      * rewrite (add_item_new quantity f Hq Hin). cbn. tauto.
    + destruct (add_item_rejects quantity f Hq) as [e He]. rewrite He. cbn.
      split; [discriminate|tauto].
Qed.

Lemma add_item_decision_table_witness :
  Order.add_item 6 (Order.mk_frame (sample_order pending []) sample_product)
  = Raised (ValueError (NotEnoughOf (str_of "Widget") 5 6))
      (Order.mk_frame (sample_order pending []) sample_product).
Proof.
  apply (add_item_decision_table 6
           (Order.mk_frame (sample_order pending []) sample_product)).
  cbn. lia.
Defined.

(** ** Order: life cycle *)

(** X7.  On a pending order a returning [add_item] makes [confirm]
    succeed, whatever the order held before; the confirmed order cannot
    be confirmed again but can still be cancelled. *)
Theorem add_item_then_confirm (quantity : Z) (f f' : Order.frame) :
  Order.status (Order.self f) = pending ->
  Order.add_item quantity f = Returned tt f' ->
  Order.confirm (Order.self f') = Returned tt (Order.set_status confirmed (Order.self f'))
  /\ returned (Order.confirm (Order.set_status confirmed (Order.self f'))) = false
  /\ Order.cancel (Order.set_status confirmed (Order.self f'))
     = Returned tt (Order.set_status cancelled (Order.self f')).
Proof.
  intros Hs H. destruct (add_item_outcome quantity f) as [[e He] | (_ & _ & Hr)].
  { rewrite He in H. discriminate. }
  rewrite Hr in H. injection H as <-. cbn [Order.self Order.set_self].
  refine (conj _ (conj _ _)).
  - apply confirm_ok; cbn; [|exact Hs]. intros E. now apply app_eq_nil in E as [_ ?].
  - destruct (confirm_raises (Order.set_status confirmed
      (Order.set_items (Order.items (Order.self f)
         ++ [Order.new_item (Order.product f) quantity]) (Order.self f)))) as [e He].
    { right. cbn. discriminate. }
    now rewrite He.
  - rewrite cancel_ok; [reflexivity|cbn; discriminate..].
Qed.

Lemma add_item_then_confirm_witness :
  Order.confirm (sample_order pending [sample_item])
  = Returned tt (sample_order confirmed [sample_item]).
Proof.
  apply (add_item_then_confirm 2
           (Order.mk_frame (sample_order pending []) sample_product)
           (Order.mk_frame (sample_order pending [sample_item]) sample_product)
           eq_refl eq_refl).
Defined.

(** X8.  Nothing leaves the cancelled and the delivered status: on such
    an order [confirm] and [cancel] both raise and the order stays as it
    is; so after a returning [cancel] every further [confirm] or [cancel]
    raises, and the items are those from before the cancellation. *)
Theorem cancelled_is_terminal (o : Order.t) :
  (Order.status o = cancelled \/ Order.status o = delivered ->
     (exists e, Order.confirm o = Raised (ValueError e) o)
     /\ Order.cancel o = Raised (ValueError (CannotCancel (Order.status o))) o)
  /\ (forall o', Order.cancel o = Returned tt o' ->
        Order.items o' = Order.items o
        /\ (exists e, Order.confirm o' = Raised (ValueError e) o')
        /\ Order.cancel o' = Raised (ValueError (CannotCancel cancelled)) o').
Proof.
  assert (Hterm : forall x, Order.status x = cancelled \/ Order.status x = delivered ->
     (exists e, Order.confirm x = Raised (ValueError e) x)
     /\ Order.cancel x = Raised (ValueError (CannotCancel (Order.status x))) x).
  { intros x Hx. split.
    - apply confirm_raises. right. destruct Hx as [-> | ->]; discriminate.
    - apply cancel_raises. tauto. }
  split; [apply Hterm|].
  intros o' H.
  destruct (decide (Order.status o = delivered \/ Order.status o = cancelled)) as [Hs | Hs].
  { rewrite (cancel_raises o Hs) in H. discriminate. }
  rewrite cancel_ok in H by tauto. injection H as <-.
  split; [reflexivity|]. exact (Hterm (Order.set_status cancelled o) (or_introl eq_refl)).
Qed.

(** ** ProductRepository *)

Lemma validate_returns (p p' : Product.t) :
  Product._validate p = Returned tt p' -> p' = p.
Proof.
  intros H. pose proof (validate_same p) as Hs. now rewrite H in Hs.
Qed.

Lemma to_entity_unfold now k row (d : db) :
  ProductRepository._to_entity now k row d
  = match Product._validate (entity_of k row) with
    | Returned _ p => Returned p d
    | Raised e _ => Raised e d
    end.
Proof. reflexivity. Qed.

(** X9.  A returning [ProductRepository.update] is read back by [get]:
    the entity returned is the one a following [get] of the same id
    returns, it carries the name, price and quantity of the entity
    handed in, and no other product row and no order row is touched. *)
Theorem product_update_then_get (now db_now : Z) (d d' : db) (p p' : Product.t) :
  ProductRepository.update now db_now p d = Returned p' d' ->
  ProductRepository.get now (Product.id p) d' = Returned (Some p') d'
  /\ Product.id p' = Product.id p
  /\ Product.name p' = Product.name p
  /\ Product.price p' = Product.price p
  /\ Product.quantity p' = Product.quantity p
  /\ (forall k, Some k <> Product.id p -> products d' !! k = products d !! k)
  /\ orders d' = orders d.
Proof.
  unfold ProductRepository.update, ProductRepository.select. run_method.
  destruct (Product.id p) as [k|] eqn:Hid; [|discriminate].
  destruct (products d !! k) as [row0|] eqn:E; [|discriminate].
  cbv beta iota zeta.
  destruct (negb (ProductRepository.sqlite_integer (Product.quantity p))); [discriminate|].
  cbv beta iota.
  destruct (is_nan (Product.price p)); [discriminate|]. cbv beta iota.
  rewrite to_entity_unfold.
  match goal with |- context [Product._validate ?x] =>
    destruct (Product._validate x) as [[] q | e q] eqn:Hv end; [|discriminate].
  pose proof (validate_returns _ _ Hv) as ->.
  intros [= <- <-].
  refine (conj _ (conj eq_refl (conj eq_refl (conj eq_refl (conj eq_refl (conj _ eq_refl)))))).
  - unfold ProductRepository.get, ProductRepository.select. run_method.
    cbn [products set_products]. rewrite lookup_insert_eq. cbv beta iota.
    rewrite to_entity_unfold, Hv. reflexivity.
  - intros k' Hk. cbn. apply lookup_insert_ne. congruence.
Qed.

Lemma product_update_then_get_witness :
  exists p' d',
    ProductRepository.update 9 20 (Product.mk (Some 1) (str_of "Gadget") 12 3 0 9)
      empty_order_db = Returned p' d'
    /\ ProductRepository.get 9 (Some 1) d' = Returned (Some p') d'.
Proof.
  destruct (ProductRepository.update 9 20 (Product.mk (Some 1) (str_of "Gadget") 12 3 0 9)
              empty_order_db) as [p' d' | e d'] eqn:H.
  - exists p', d'. split; [reflexivity|].
    exact (proj1 (product_update_then_get 9 20 empty_order_db d' _ p' H)).
  - exfalso. vm_compute in H. discriminate.
Defined.




(** ** Product: stock flags *)

(** X21.  For a product whose quantity is not negative: [is_in_stock]
    says whether the quantity is positive; a returning [add_stock] leaves
    the product in stock, and a [remove_stock] of the whole quantity
    returns and leaves it out of stock. *)
Theorem stock_flags (now : Z) (p : Product.t) :
  0 <= Product.quantity p ->
  (Product.is_in_stock p = true <-> 0 < Product.quantity p)
  /\ (forall amount p', Product.add_stock now amount p = Returned tt p' ->
        Product.is_in_stock p' = true)
  /\ (0 < Product.quantity p ->
        exists p', Product.remove_stock now (Product.quantity p) p = Returned tt p'
                   /\ Product.is_in_stock p' = false).
Proof.
  intros Hq.
  assert (Hin : Product.is_in_stock p = true <-> 0 < Product.quantity p).
  { unfold Product.is_in_stock, Product.quantity. apply Z.ltb_lt. }
  refine (conj Hin (conj _ _)).
  - intros amount p' H.
    destruct (decide (0 < amount)) as [Ha | Ha].
    + rewrite (add_stock_ok now p amount Ha) in H. injection H as <-.
      unfold Product.is_in_stock, with_quantity. cbn. apply Z.ltb_lt. lia.
    + rewrite (add_stock_raises now p amount) in H by lia. discriminate.
  - intros Hpos. eexists. split.
    + apply remove_stock_ok. lia.
    + unfold Product.is_in_stock, with_quantity. cbn. apply Z.ltb_ge. lia.
Qed.

Lemma stock_flags_witness :
  Product.is_in_stock sample_product = true
  /\ exists p', Product.remove_stock 7 5 sample_product = Returned tt p'
                /\ Product.is_in_stock p' = false.
Proof.
  assert (Hb : 0 <= Product.quantity sample_product) by (cbn; lia).
  destruct (stock_flags 7 sample_product Hb) as (Hin & _ & Hout).
  split; [apply Hin; cbn; lia|]. apply Hout. cbn. lia.
Defined.

(** ** Product: bounds *)

(** X23.  NaN apart, the bounds of a product hold.  A construction with
    a price that is not NaN returns only with [price > 0] and
    [quantity >= 0]; on a product within these bounds each of
    [update_price] (with a new price that is not NaN), [add_stock] and
    [remove_stock] either returns with both bounds in place or raises
    and leaves the product as it was; assigning [price] or [quantity]
    raises [AttributeError] and stores nothing. *)
Theorem product_bounds_without_nan :
  (forall now name price quantity id created_at updated_at p,
      is_nan price = false ->
      Product.__init__ now name price quantity id created_at updated_at = Returned tt p ->
      (0 <? Product.price p)%float = true /\ 0 <= Product.quantity p)
  /\ (forall now m p,
        (0 <? Product.price p)%float = true -> 0 <= Product.quantity p ->
        match m with UpdatePrice new_price => is_nan new_price = false | _ => True end ->
        match mutate now m p with
        | Returned _ p' => (0 <? Product.price p')%float = true /\ 0 <= Product.quantity p'
        | Raised _ p' => p' = p
        end)
  /\ (forall v p, Product.assign_price v p = Raised (AttributeError "price") p)
  /\ (forall v p, Product.assign_quantity v p = Raised (AttributeError "quantity") p).
Proof.
  refine (conj _ (conj _ (conj (fun _ _ => eq_refl) (fun _ _ => eq_refl)))).
  - intros now name price quantity id created_at updated_at p Hnan.
    unfold Product.__init__, Product._validate. run_method.
    match goal with |- context [if ?b then _ else _] => destruct b end;
      [discriminate|]. cbv beta iota. cbn [Product._price Product._quantity].
    rewrite (leb_ltb price 0 Hnan zero_not_nan).
    destruct (0 <? price)%float eqn:Hp; [|discriminate]. cbv beta iota.
    destruct (Z.ltb_spec quantity 0); [discriminate|].
    intros [= <-]. split; [exact Hp|cbn; lia].
  - intros now m p Hp Hq Hm. destruct m as [new_price | amount | amount]; cbn [mutate].
    + pose proof (leb_ltb new_price 0 Hm zero_not_nan) as Hn.
      destruct (0 <? new_price)%float eqn:Epos; cbn [negb] in Hn.
      * destruct (0.5 <? price_ratio p new_price)%float eqn:Efar.
        -- now rewrite (update_price_too_far now p new_price Hp Hn Efar).
        -- rewrite (update_price_ok now p new_price Hp Hn Efar). split; [exact Epos|exact Hq].
      * now rewrite (update_price_nonpositive now p new_price Hn).
    + destruct (decide (0 < amount)) as [Ha | Ha].
      * rewrite (add_stock_ok now p amount Ha). split; [exact Hp|].
        unfold with_quantity, Product.quantity, Product.set_updated_at,
          Product.set__quantity in *. cbn [Product._quantity]. lia.
      * rewrite (add_stock_raises now p amount) by lia. reflexivity.
    + destruct (decide (0 < amount <= Product.quantity p)) as [Ha | Ha].
      * rewrite (remove_stock_ok now p amount Ha). split; [exact Hp|].
        unfold with_quantity, Product.quantity, Product.set_updated_at,
          Product.set__quantity in *. cbn [Product._quantity]. lia.
      * destruct (remove_stock_raises now p amount Ha) as [e ->]. reflexivity.
Qed.

(** ** Services *)

(** X14.  [add_item_to_order] and [confirm_order] hold the coroutine of
    [OrderRepository.get], which is true and has no method of the order:
    for every order id, DTO and database they raise [AttributeError]
    (for [add_item], for [confirm]), they do not return [None] for an
    unknown order, and the database is left as it was. *)
Theorem order_services_stop_at_the_coroutine
    (order_id : Z) (dto : AddItemToOrderDTO.t) (d : db) :
  OrderService.add_item_to_order order_id dto d = Raised (AttributeError "add_item") d
  /\ OrderService.confirm_order order_id d = Raised (AttributeError "confirm") d.
Proof. split; reflexivity. Qed.

(** X16.  [update_product] holds the coroutine of [ProductRepository.get]:
    for every product id, DTO and database it raises [AttributeError] at
    the first attribute it touches and leaves the database as it was.
    The attribute is [name] when the DTO has a name, else [update_price]
    when it has a price, else [quantity] when it has a quantity, else the
    [id] read by [_to_response_dto]. *)
Theorem update_product_stops_at_the_coroutine
    (product_id : Z) (dto : ProductUpdateDTO.t) (d : db) :
  ProductService.update_product product_id dto d
  = Raised (AttributeError
              match ProductUpdateDTO.name dto, ProductUpdateDTO.price dto,
                    ProductUpdateDTO.quantity dto with
              | Some _, _, _ => "name"
              | None, Some _, _ => "update_price"
              | None, None, Some _ => "quantity"
              | None, None, None => "id"
              end) d.
Proof.
  unfold ProductService.update_product.
  destruct (ProductUpdateDTO.name dto), (ProductUpdateDTO.price dto),
    (ProductUpdateDTO.quantity dto); reflexivity.
Qed.

(** X22.  The reading services and [delete_product]: [get_product]
    raises [AttributeError] for [id] and [get_order] for [items], for
    every id and database, stored or not; [delete_product] returns the
    coroutine of [ProductRepository.delete], which is never run, so the
    row stays.  None of them changes the database. *)
Theorem reading_services_stop_at_the_coroutine (k : Z) (d : db) :
  ProductService.get_product k d = Raised (AttributeError "id") d
  /\ OrderService.get_order k d = Raised (AttributeError "items") d
  /\ ProductService.delete_product k d
     = Returned (Coroutine "ProductRepository.delete") d.
Proof. repeat split. Qed.
